(** * Intermittent.py: the ARE calculator and the monthly simulator

    A shallow embedding of the calculation core of [App.py]:
    - [AREIntermittent.calculer_are], the daily benefit (ARE) of an
      intermittent worker under Annexe 8 (technicians) or 10 (artists);
    - [calcul_jni] and the arithmetic of the "Simulateur Mensuel" page.

    Numbers.  Python [int] is [Z].  Python [float] is read as the exact
    rational it denotes: literals such as [31.71] are the decimal fractions
    they spell, and [*], [+], [-], [/] are exact.  Binary64 rounding error
    is therefore outside the model; [round(x, 2)] is round-half-to-even on
    the exact value.

    Effects.  Python exceptions and the calls to [st.error] are kept: a
    computation yields an [outcome] (a returned value or a raised exception)
    together with the list of messages it handed to [st.error]. *)

From Stdlib Require Import ZArith QArith Qround Qabs Qminmax Lqa Lia.
From stdpp Require Import gmap strings.

Open Scope Q_scope.

(** ** Exceptions and the streamlit error channel *)

Inductive exn : Type :=
| KeyError (key : Z)
| ZeroDivisionError.

Inductive outcome (A : Type) : Type :=
| Returned (a : A)
| Raised (e : exn).
Arguments Returned {A} a.
Arguments Raised {A} e.

(** A computation: what it yields, and the messages passed to [st.error]
    on the way, oldest first. *)
Definition py (A : Type) : Type := (outcome A * list string)%type.

#[global] Instance py_ret : MRet py := λ A a, (Returned a, []).

#[global] Instance py_bind : MBind py := λ A B f m,
  match m with
  | (Returned a, shown) =>
      match f a with
      | (o, shown') => (o, shown ++ shown')
      end
  | (Raised e, shown) => (Raised e, shown)
  end.

Definition raise {A : Type} (e : exn) : py A := (Raised e, []).

(** [st.error(msg)] *)
Definition st_error (msg : string) : py unit := (Returned tt, [msg]).

(** ** Python arithmetic on exact numbers *)

Definition Qlt_bool (x y : Q) : bool := negb (Qle_bool y x).

(** [x / y]: raises on a zero divisor. *)
Definition py_div (x y : Q) : py Q :=
  if Qeq_bool y 0 then raise ZeroDivisionError else mret (x / y).

(** [max(a, b)]: the second argument wins only when strictly greater. *)
Definition py_max (a b : Q) : Q := if Qlt_bool a b then b else a.

Definition py_max_int (a b : Z) : Z := if (a <? b)%Z then b else a.

(** [min(a, b)]: the second argument wins only when strictly smaller. *)
Definition py_min_int (a b : Z) : Z := if (b <? a)%Z then b else a.

(** [math.ceil] *)
Definition math_ceil (x : Q) : Z := Qceiling x.

(** Nearest integer, ties to the even one. *)
Definition round_half_even (x : Q) : Z :=
  let f := Qfloor x in
  match Qcompare (x - inject_Z f) (1 # 2) with
  | Lt => f
  | Gt => (f + 1)%Z
  | Eq => if Z.even f then f else (f + 1)%Z
  end.

(** [round(x, 2)]: a whole number of hundredths. *)
Definition py_round2 (x : Q) : Q := round_half_even (x * 100) # 100.

(** ** Results *)

(** The values stored in the [details] dict: rounded amounts, and the
    string ["Non applicable"]. *)
Inductive pyval : Type :=
| VFloat (q : Q)
| VStr (s : string).

Record are_result : Type := {
  net : Q;
  brut : Q;
  details : gmap string pyval
}.

(** ** class AREIntermittent *)

Module AREIntermittent.

Definition AJ_MINIMALE : Q := 31.71.
Definition SMIC_JOURNALIER : Q := 60.0.

(** One entry of [PARAMS]; its keys are fixed, hence a record. *)
Record params : Type := {
  seuil_salaire : Z;
  taux_salaire_inf : Q;
  taux_salaire_sup : Q;
  seuil_heures : Z;
  taux_heures_inf : Q;
  taux_heures_sup : Q;
  partie_c : Q;
  plancher : Q
}.

(** The entry under key 8 (technicians). *)
Definition PARAMS_8 : params :=
  {| seuil_salaire := 14400; taux_salaire_inf := 0.42;
     taux_salaire_sup := 0.05;
     seuil_heures := 720; taux_heures_inf := 0.26; taux_heures_sup := 0.08;
     partie_c := 0.40; plancher := 38.34 |}.

(** The entry under key 10 (artists). *)
Definition PARAMS_10 : params :=
  {| seuil_salaire := 13700; taux_salaire_inf := 0.36;
     taux_salaire_sup := 0.05;
     seuil_heures := 690; taux_heures_inf := 0.26; taux_heures_sup := 0.08;
     partie_c := 0.70; plancher := 44.43 |}.

Definition PARAMS : gmap Z params :=
  {[ 8%Z := PARAMS_8; 10%Z := PARAMS_10 ]}.

(** [PARAMS[annexe]] *)
Definition PARAMS_getitem (annexe : Z) : py params :=
  match PARAMS !! annexe with
  | Some p => mret p
  | None => raise (KeyError annexe)
  end.

(** Lines 58-62: the daily reference wage (SJR). *)
Definition calcul_sjr (salaire_reference_brut_12mois : Q)
    (jours_reference : Z) : py Q :=
  if (0 <? jours_reference)%Z
  then py_div salaire_reference_brut_12mois (inject_Z jours_reference)
  else mret 0.

(** Lines 64-81: gross daily benefit and details, Annexe 10. *)
Definition brute_annexe10 (p : params) (sjr : Q)
    (total_cachets_12mois : Z) : py (Q * gmap string pyval) :=
  let partie_a_grok := py_max AJ_MINIMALE (0.70 * sjr) in
  partie_b_grok ← py_div (12.27 * inject_Z total_cachets_12mois) 12;
  let are_brute := partie_a_grok + partie_b_grok in
  let are_brute := py_max are_brute (plancher p) in
  mret (are_brute,
        {[ "sjr" := VFloat (py_round2 sjr);
           "partie_sjr_70pc" := VFloat (py_round2 (0.70 * sjr));
           "partie_a_grok_final" := VFloat (py_round2 partie_a_grok);
           "partie_b_grok_cachets" := VFloat (py_round2 partie_b_grok) ]}).

(** Lines 86-93: part A (salary), Annexe 8. *)
Definition partie_a (p : params) (salaire_calcul_a : Q) : py Q :=
  if Qle_bool salaire_calcul_a (inject_Z (seuil_salaire p))
  then py_div (AJ_MINIMALE * taux_salaire_inf p * salaire_calcul_a) 5000
  else py_div (AJ_MINIMALE *
                 (taux_salaire_inf p * inject_Z (seuil_salaire p) +
                  taux_salaire_sup p *
                    (salaire_calcul_a - inject_Z (seuil_salaire p)))) 5000.

(** Lines 95-101: part B (hours), Annexe 8. *)
Definition partie_b (p : params) (heures_travaillees_12mois : Z) : py Q :=
  if (heures_travaillees_12mois <=? seuil_heures p)%Z
  then py_div (AJ_MINIMALE * taux_heures_inf p *
                 inject_Z heures_travaillees_12mois) 507
  else py_div (AJ_MINIMALE *
                 (taux_heures_inf p * inject_Z (seuil_heures p) +
                  taux_heures_sup p *
                    inject_Z (heures_travaillees_12mois - seuil_heures p)))
              507.

(** Lines 84-112: gross daily benefit and details, Annexe 8. *)
Definition brute_annexe8 (p : params) (salaire_reference_brut_12mois : Q)
    (heures_travaillees_12mois : Z) : py (Q * gmap string pyval) :=
  a ← partie_a p salaire_reference_brut_12mois;
  b ← partie_b p heures_travaillees_12mois;
  let c := AJ_MINIMALE * partie_c p in
  let are_brute := py_max (a + b + c) (plancher p) in
  mret (are_brute,
        {[ "partie_a" := VFloat (py_round2 a);
           "partie_b" := VFloat (py_round2 b);
           "partie_c" := VFloat (py_round2 c) ]}).

(** Line 119: the net amount before the annualisation divisor. *)
Definition are_nette (are_brute : Q) : Q :=
  if Qlt_bool SMIC_JOURNALIER are_brute then are_brute * 0.933
  else are_brute.

Definition diviseur_annualisation : Q := 1.76.

(** Lines 117-140: net conversion, divisor and the returned dict. *)
Definition net_et_resultat (annexe : Z) (are_brute : Q)
    (details : gmap string pyval) : py are_result :=
  let are_nette := are_nette are_brute in
  if (annexe =? 10)%Z then
    are_nette_journaliere_final ← py_div are_nette diviseur_annualisation;
    let details :=
      <["diviseur_annualisation_applique" := VFloat diviseur_annualisation]>
        details in
    let details :=
      <["are_nette_avant_diviseur" := VFloat (py_round2 are_nette)]>
        details in
    mret {| net := py_round2 are_nette_journaliere_final;
            brut := py_round2 are_brute;
            details := details |}
  else
    let are_nette_journaliere_final := are_nette in
    let details :=
      <["diviseur_annualisation_applique" := VStr "Non applicable"]>
        details in
    mret {| net := py_round2 are_nette_journaliere_final;
            brut := py_round2 are_brute;
            details := details |}.

(** Lines 40-140.  The early [return] of the [else] branch ends the
    computation there; the other two branches continue with
    [net_et_resultat]. *)
Definition calculer_are (annexe : Z) (salaire_reference_brut_12mois : Q)
    (heures_travaillees_12mois total_cachets_12mois jours_reference : Z)
    : py are_result :=
  params ← PARAMS_getitem annexe;
  sjr ← calcul_sjr salaire_reference_brut_12mois jours_reference;
  if (annexe =? 10)%Z then
    '(are_brute, details) ← brute_annexe10 params sjr total_cachets_12mois;
    net_et_resultat annexe are_brute details
  else if (annexe =? 8)%Z then
    '(are_brute, details) ← brute_annexe8 params
                               salaire_reference_brut_12mois
                               heures_travaillees_12mois;
    net_et_resultat annexe are_brute details
  else
    _ ← st_error "Annexe non supportée.";
    mret {| net := 0; brut := 0; details := ∅ |}.

End AREIntermittent.

Import AREIntermittent.

(** ** Monthly simulator *)

(** Lines 174-179. *)
Definition calcul_jni (annexe : Z) (heures_totales jours_mois : Z) : Z :=
  if (annexe =? 10)%Z
  then py_min_int (math_ceil ((inject_Z heures_totales * 1.3) / 10)) jours_mois
  else py_min_int (math_ceil ((inject_Z heures_totales * 1.4) / 8)) jours_mois.

(** Line 280: the hours of the month, as the page adds them up. *)
Definition heures_totales (cachets heures_cachet cachets_repet jours_maladie
    heures_formation cdd_heures : Z) : Z :=
  (cachets * heures_cachet + cachets_repet * 6 + jours_maladie * 8
   + heures_formation + cdd_heures)%Z.

Record mois : Type := {
  jni : Z;
  jours_indem : Z;
  are_mensuelle : Q
}.

(** Lines 285-289: what the "Simuler le mois" button computes from the
    hours of the month and the daily benefit typed by the user. *)
Definition simuler_mois (annexe : Z) (heures_totales jours_mois : Z)
    (are_journaliere_override : Q) : mois :=
  let jni := calcul_jni annexe heures_totales jours_mois in
  let jours_indem := py_max_int (jours_mois - jni) 0 in
  let are_mensuelle := are_journaliere_override * inject_Z jours_indem in
  {| jni := jni; jours_indem := jours_indem; are_mensuelle := are_mensuelle |}.

(** Lines 278-289: the handler of the "Simuler le mois" button, from the
    values of the widgets of the page. *)
Definition bouton_simuler (annexe jours_mois cachets heures_cachet : Z)
    (cdd_heures heures_formation cachets_repet jours_maladie : Z)
    (are_journaliere_override : Q) : mois :=
  simuler_mois annexe
    (heures_totales cachets heures_cachet cachets_repet jours_maladie
       heures_formation cdd_heures)
    jours_mois are_journaliere_override.

(** Line 320: the total net income of the month shown by the page, before
    it is formatted with two decimals. *)
Definition revenu_total (annexe jours_mois cachets heures_cachet : Z)
    (montant_cachet cdd_heures : Z) (cdd_taux_horaire : Q)
    (auto_montant heures_formation cachets_repet jours_maladie : Z)
    (are_journaliere_override : Q) : Q :=
  let m := bouton_simuler annexe jours_mois cachets heures_cachet cdd_heures
             heures_formation cachets_repet jours_maladie
             are_journaliere_override in
  are_mensuelle m + inject_Z (cachets * montant_cachet)
  + inject_Z cdd_heures * cdd_taux_horaire + inject_Z auto_montant.

(** ** The specification's formulas

    Written from the words of the specification (sections 4.1 and 4.2), to be
    compared with the code above. *)

Module Spec.

Inductive Category : Type := Technician | Artist.

Definition annexe_of (c : Category) : Z :=
  match c with
  | Technician => 8
  | Artist => 10
  end.

Definition minimumDailyAllowance : Q := 31.71.
Definition technicianFloor : Q := 38.34.
Definition artistFloor : Q := 44.43.

Definition floor_of (c : Category) : Q :=
  match c with
  | Technician => technicianFloor
  | Artist => artistFloor
  end.

Definition salaryPart (salary : Q) : Q :=
  minimumDailyAllowance *
    (0.42 * Qmin salary 14400 + 0.05 * Qmax 0 (salary - 14400)) / 5000.

Definition hoursPart (hours : Q) : Q :=
  minimumDailyAllowance *
    (0.26 * Qmin hours 720 + 0.08 * Qmax 0 (hours - 720)) / 507.

Definition fixedPart : Q := minimumDailyAllowance * 0.40.

Definition grossDaily_technician (salary hours : Q) : Q :=
  Qmax (salaryPart salary + hoursPart hours + fixedPart) technicianFloor.

Definition grossDaily_artist (dailyReferenceWage cachetCount : Q) : Q :=
  let partA := Qmax minimumDailyAllowance (0.70 * dailyReferenceWage) in
  let partB := 12.27 * cachetCount / 12 in
  Qmax (partA + partB) artistFloor.

Definition nonIndemnifiedDays (c : Category) (totalHours daysInMonth : Z)
    : Z :=
  let '(factor, divisor) :=
    match c with
    | Artist => (1.3, 10)
    | Technician => (1.4, 8)
    end in
  Z.min (Qceiling (inject_Z totalHours * factor / divisor)) daysInMonth.

Definition indemnifiableDays (daysInMonth nonIndemnified : Z) : Z :=
  Z.max (daysInMonth - nonIndemnified) 0.

End Spec.

(** * Properties *)

(** Division by a numeric literal, turned into the product that [lra]
    understands. *)
Ltac inv_consts :=
  unfold Qdiv in *;
  repeat match goal with
         | |- context [Qinv (Qmake ?n ?d)] =>
             let v := eval vm_compute in (Qinv (Qmake n d)) in
             change (Qinv (Qmake n d)) with v
         | H : context [Qinv (Qmake ?n ?d)] |- _ =>
             let v := eval vm_compute in (Qinv (Qmake n d)) in
             change (Qinv (Qmake n d)) with v in H
         end.

(** ** The effect monad *)

Lemma bind_returned {A B : Type} (a : A) (f : A → py B) :
  (Returned a, []) ≫= f = f a.
Proof. unfold mbind, py_bind. by destruct (f a). Qed.

Lemma bind_raised {A B : Type} (e : exn) (shown : list string) (f : A → py B) :
  (Raised e, shown) ≫= f = (Raised e, shown).
Proof. reflexivity. Qed.

Lemma py_div_nonzero (x y : Q) :
  ¬ y == 0 → py_div x y = (Returned (x / y), []).
Proof.
  intros Hy. unfold py_div.
  destruct (Qeq_bool y 0) eqn:E; [|reflexivity].
  apply Qeq_bool_iff in E. contradiction.
Qed.

(** ** Comparisons, [max] and [min] *)

Lemma Qlt_bool_iff (x y : Q) : Qlt_bool x y = true ↔ x < y.
Proof.
  unfold Qlt_bool. rewrite negb_true_iff.
  destruct (Qle_bool y x) eqn:E.
  - apply Qle_bool_iff in E. split; [discriminate | intros H; lra].
  - split; [intros _ | reflexivity].
    apply Qnot_le_lt. intros H. apply Qle_bool_iff in H. congruence.
Qed.

Lemma py_max_cases (a b : Q) :
  (a < b ∧ py_max a b = b) ∨ (b <= a ∧ py_max a b = a).
Proof.
  unfold py_max. destruct (Qlt_bool a b) eqn:E.
  - left. split; [by apply Qlt_bool_iff | reflexivity].
  - right. split; [|reflexivity].
    apply Qnot_lt_le. intros H. apply Qlt_bool_iff in H. congruence.
Qed.

Lemma py_max_Qmax (a b : Q) : py_max a b == Qmax a b.
Proof.
  destruct (py_max_cases a b) as [[H ->]|[H ->]].
  - symmetry. apply Q.max_r. lra.
  - symmetry. apply Q.max_l. lra.
Qed.

Lemma py_max_ge_r (a b : Q) : b <= py_max a b.
Proof. destruct (py_max_cases a b) as [[H ->]|[H ->]]; lra. Qed.

Lemma py_max_mono (a a' b : Q) : a <= a' → py_max a b <= py_max a' b.
Proof.
  intros H.
  destruct (py_max_cases a b) as [[? ->]|[? ->]];
    destruct (py_max_cases a' b) as [[? ->]|[? ->]]; lra.
Qed.

Lemma py_max_mono_r (a b b' : Q) : b <= b' → py_max a b <= py_max a b'.
Proof.
  intros H.
  destruct (py_max_cases a b) as [[? ->]|[? ->]];
    destruct (py_max_cases a b') as [[? ->]|[? ->]]; lra.
Qed.

Lemma py_min_int_Zmin (a b : Z) : py_min_int a b = Z.min a b.
Proof. unfold py_min_int. destruct (Z.ltb_spec b a); lia. Qed.

Lemma py_max_int_Zmax (a b : Z) : py_max_int a b = Z.max a b.
Proof. unfold py_max_int. destruct (Z.ltb_spec a b); lia. Qed.

(** ** Rounding *)

Lemma round_half_even_comp (x y : Q) :
  x == y → round_half_even x = round_half_even y.
Proof.
  intros H. unfold round_half_even.
  rewrite (Qfloor_comp _ _ H).
  assert (E : x - inject_Z (Qfloor y) == y - inject_Z (Qfloor y)) by lra.
  by rewrite E.
Qed.

Lemma round_half_even_bounds (x : Q) :
  (Qfloor x ≤ round_half_even x ≤ Qfloor x + 1)%Z.
Proof.
  unfold round_half_even.
  destruct (Qcompare _ _); [destruct (Z.even _)| |]; lia.
Qed.

Lemma round_half_even_mono (x y : Q) :
  x <= y → (round_half_even x ≤ round_half_even y)%Z.
Proof.
  intros Hxy.
  pose proof (Qfloor_resp_le _ _ Hxy) as Hf.
  destruct (Z.eq_dec (Qfloor x) (Qfloor y)) as [E|NE].
  - unfold round_half_even. rewrite <- E.
    destruct (Qcompare (x - inject_Z (Qfloor x)) (1 # 2)) eqn:Cx;
      destruct (Qcompare (y - inject_Z (Qfloor x)) (1 # 2)) eqn:Cy;
      try (destruct (Z.even (Qfloor x))); try lia;
      repeat match goal with
             | H : Qcompare _ _ = Eq |- _ => apply Qeq_alt in H
             | H : Qcompare _ _ = Lt |- _ => apply Qlt_alt in H
             | H : Qcompare _ _ = Gt |- _ => apply Qgt_alt in H
             end; lra.
  - pose proof (round_half_even_bounds x). pose proof (round_half_even_bounds y).
    lia.
Qed.


Lemma py_round2_mono (x y : Q) : x <= y → py_round2 x <= py_round2 y.
Proof.
  intros H. unfold py_round2, Qle. simpl.
  apply Z.mul_le_mono_nonneg_r; [lia|].
  apply round_half_even_mono. lra.
Qed.

(** An amount that already is a whole number of hundredths is kept. *)
Lemma round_half_even_Z (n : Z) : round_half_even (inject_Z n) = n.
Proof.
  unfold round_half_even. rewrite Qfloor_Z.
  assert (E : Qcompare (inject_Z n - inject_Z n) (1 # 2) = Lt).
  { apply (proj1 (Qlt_alt _ _)). lra. }
  by rewrite E.
Qed.

Lemma py_round2_hundredths (n : Z) : py_round2 (n # 100) = n # 100.
Proof.
  unfold py_round2. f_equal.
  rewrite <- (round_half_even_Z n) at 2. apply round_half_even_comp.
  unfold Qeq. simpl. lia.
Qed.

(** ** [PARAMS] *)

Lemma PARAMS_getitem_8 : PARAMS_getitem 8 = (Returned PARAMS_8, []).
Proof. reflexivity. Qed.

Lemma PARAMS_getitem_10 : PARAMS_getitem 10 = (Returned PARAMS_10, []).
Proof. reflexivity. Qed.

Lemma PARAMS_getitem_other (annexe : Z) :
  annexe ≠ 8%Z → annexe ≠ 10%Z →
  PARAMS_getitem annexe = (Raised (KeyError annexe), []).
Proof.
  intros H8 H10. unfold PARAMS_getitem, PARAMS.
  rewrite lookup_insert_ne by done.
  by rewrite lookup_singleton_ne.
Qed.

(** The dict has exactly the keys 8 and 10. *)
Lemma PARAMS_getitem_returns (annexe : Z) (p : params) (shown : list string) :
  PARAMS_getitem annexe = (Returned p, shown) → annexe = 8%Z ∨ annexe = 10%Z.
Proof.
  intros H.
  destruct (decide (annexe = 8%Z)) as [|H8]; [by left|].
  destruct (decide (annexe = 10%Z)) as [|H10]; [by right|].
  rewrite PARAMS_getitem_other in H by done. discriminate.
Qed.

(** ** The blocks of [calculer_are] *)

Lemma calcul_sjr_value (salaire : Q) (jours_reference : Z) :
  calcul_sjr salaire jours_reference =
  (Returned (if (0 <? jours_reference)%Z
             then salaire / inject_Z jours_reference else 0), []).
Proof.
  unfold calcul_sjr. destruct (Z.ltb_spec 0 jours_reference); [|reflexivity].
  apply py_div_nonzero. unfold Qeq. simpl. lia.
Qed.

Lemma partie_a_value (salaire : Q) :
  ∃ a, partie_a PARAMS_8 salaire = (Returned a, []) ∧
       a == Spec.salaryPart salaire.
Proof.
  unfold partie_a, Spec.salaryPart, Spec.minimumDailyAllowance.
  cbn [seuil_salaire taux_salaire_inf taux_salaire_sup PARAMS_8].
  destruct (Qle_bool salaire (inject_Z 14400)) eqn:E.
  - eexists. split; [by apply py_div_nonzero|].
    apply Qle_bool_iff in E. unfold AJ_MINIMALE.
    change (inject_Z 14400) with 14400 in E.
    rewrite (Q.min_l salaire 14400) by lra.
    rewrite (Q.max_l 0 (salaire - 14400)) by lra. field.
  - eexists. split; [by apply py_div_nonzero|].
    assert (14400 < salaire).
    { apply Qnot_le_lt. intros H. apply Qle_bool_iff in H.
      change (inject_Z 14400) with 14400 in E. congruence. }
    unfold AJ_MINIMALE. change (inject_Z 14400) with 14400.
    rewrite (Q.min_r salaire 14400) by lra.
    rewrite (Q.max_r 0 (salaire - 14400)) by lra. field.
Qed.

Lemma partie_b_value (heures : Z) :
  ∃ b, partie_b PARAMS_8 heures = (Returned b, []) ∧
       b == Spec.hoursPart (inject_Z heures).
Proof.
  unfold partie_b, Spec.hoursPart, Spec.minimumDailyAllowance.
  cbn [seuil_heures taux_heures_inf taux_heures_sup PARAMS_8].
  destruct (Z.leb_spec heures 720) as [H|H].
  - eexists. split; [by apply py_div_nonzero|].
    assert (inject_Z heures <= 720) by (unfold Qle; simpl; lia).
    unfold AJ_MINIMALE.
    rewrite (Q.min_l (inject_Z heures) 720) by lra.
    rewrite (Q.max_l 0 (inject_Z heures - 720)) by lra. field.
  - eexists. split; [by apply py_div_nonzero|].
    assert (720 < inject_Z heures) by (unfold Qlt; simpl; lia).
    unfold AJ_MINIMALE, Z.sub.
    rewrite inject_Z_plus, inject_Z_opp.
    change (inject_Z 720) with 720.
    rewrite (Q.min_r (inject_Z heures) 720) by lra.
    rewrite (Q.max_r 0 (inject_Z heures - 720)) by lra. field.
Qed.

(** The gross amount of the technician branch, before rounding. *)
Lemma brute_annexe8_value (salaire : Q) (heures : Z) :
  ∃ a b,
    partie_a PARAMS_8 salaire = (Returned a, []) ∧
    partie_b PARAMS_8 heures = (Returned b, []) ∧
    brute_annexe8 PARAMS_8 salaire heures =
      (Returned (py_max (a + b + AJ_MINIMALE * 0.40) 38.34,
                 {[ "partie_a" := VFloat (py_round2 a);
                    "partie_b" := VFloat (py_round2 b);
                    "partie_c" := VFloat (py_round2 (AJ_MINIMALE * 0.40)) ]}),
       []) ∧
    py_max (a + b + AJ_MINIMALE * 0.40) 38.34 ==
      Spec.grossDaily_technician salaire (inject_Z heures).
Proof.
  destruct (partie_a_value salaire) as (a & Ha & Ea).
  destruct (partie_b_value heures) as (b & Hb & Eb).
  exists a, b. repeat split; [done | done | |].
  - unfold brute_annexe8. by rewrite Ha, bind_returned, Hb, bind_returned.
  - rewrite py_max_Qmax. unfold Spec.grossDaily_technician.
    unfold Spec.fixedPart, Spec.minimumDailyAllowance, Spec.technicianFloor.
    unfold AJ_MINIMALE. by rewrite Ea, Eb.
Qed.

(** The gross amount of the artist branch, before rounding. *)
Lemma brute_annexe10_value (sjr : Q) (cachets : Z) :
  let partie_a_grok := py_max AJ_MINIMALE (0.70 * sjr) in
  let partie_b_grok := 12.27 * inject_Z cachets / 12 in
  brute_annexe10 PARAMS_10 sjr cachets =
    (Returned (py_max (partie_a_grok + partie_b_grok) 44.43,
               {[ "sjr" := VFloat (py_round2 sjr);
                  "partie_sjr_70pc" := VFloat (py_round2 (0.70 * sjr));
                  "partie_a_grok_final" := VFloat (py_round2 partie_a_grok);
                  "partie_b_grok_cachets" := VFloat (py_round2 partie_b_grok) ]}),
     []) ∧
  py_max (partie_a_grok + partie_b_grok) 44.43 ==
    Spec.grossDaily_artist sjr (inject_Z cachets).
Proof.
  intros pa pb. split.
  - unfold brute_annexe10. rewrite py_div_nonzero by done.
    by rewrite bind_returned.
  - unfold pa, pb, Spec.grossDaily_artist.
    unfold Spec.minimumDailyAllowance, Spec.artistFloor, AJ_MINIMALE.
    by rewrite !py_max_Qmax.
Qed.

Lemma net_et_resultat_8 (are_brute : Q) (d : gmap string pyval) :
  net_et_resultat 8 are_brute d =
    (Returned {| net := py_round2 (are_nette are_brute);
                 brut := py_round2 are_brute;
                 details := <["diviseur_annualisation_applique" :=
                                VStr "Non applicable"]> d |}, []).
Proof. reflexivity. Qed.

Lemma net_et_resultat_10 (are_brute : Q) (d : gmap string pyval) :
  net_et_resultat 10 are_brute d =
    (Returned {| net := py_round2 (are_nette are_brute / 1.76);
                 brut := py_round2 are_brute;
                 details :=
                   <["are_nette_avant_diviseur" :=
                       VFloat (py_round2 (are_nette are_brute))]>
                     (<["diviseur_annualisation_applique" := VFloat 1.76]> d) |},
     []).
Proof.
  unfold net_et_resultat. cbn [Z.eqb Pos.eqb].
  unfold diviseur_annualisation. rewrite py_div_nonzero by done.
  by rewrite bind_returned.
Qed.

(** ** [calculer_are] on the two supported categories *)

Lemma calculer_are_8 (salaire : Q) (heures cachets jours : Z) :
  ∃ g d,
    brute_annexe8 PARAMS_8 salaire heures = (Returned (g, d), []) ∧
    g == Spec.grossDaily_technician salaire (inject_Z heures) ∧
    calculer_are 8 salaire heures cachets jours =
      (Returned {| net := py_round2 (are_nette g);
                   brut := py_round2 g;
                   details := <["diviseur_annualisation_applique" :=
                                  VStr "Non applicable"]> d |}, []).
Proof.
  destruct (brute_annexe8_value salaire heures) as (a & b & _ & _ & Hg & Eg).
  eexists _, _. split; [exact Hg|]. split; [exact Eg|].
  unfold calculer_are.
  rewrite PARAMS_getitem_8, bind_returned, calcul_sjr_value, bind_returned.
  cbn [Z.eqb Pos.eqb]. by rewrite Hg, bind_returned.
Qed.

Lemma calculer_are_10 (salaire : Q) (heures cachets jours : Z) :
  let sjr := if (0 <? jours)%Z then salaire / inject_Z jours else 0 in
  ∃ g d,
    brute_annexe10 PARAMS_10 sjr cachets = (Returned (g, d), []) ∧
    g == Spec.grossDaily_artist sjr (inject_Z cachets) ∧
    calculer_are 10 salaire heures cachets jours =
      (Returned {| net := py_round2 (are_nette g / 1.76);
                   brut := py_round2 g;
                   details :=
                     <["are_nette_avant_diviseur" :=
                         VFloat (py_round2 (are_nette g))]>
                       (<["diviseur_annualisation_applique" := VFloat 1.76]>
                          d) |}, []).
Proof.
  intros sjr.
  destruct (brute_annexe10_value sjr cachets) as [Hg Eg].
  eexists _, _. split; [exact Hg|]. split; [exact Eg|].
  unfold calculer_are.
  rewrite PARAMS_getitem_10, bind_returned, calcul_sjr_value, bind_returned.
  cbn [Z.eqb Pos.eqb]. fold sjr. rewrite Hg, bind_returned.
  apply net_et_resultat_10.
Qed.

(** ** Net conversion *)

Lemma are_nette_cases (g : Q) :
  (60 < g ∧ are_nette g = g * 0.933) ∨ (g <= 60 ∧ are_nette g = g).
Proof.
  unfold are_nette, SMIC_JOURNALIER.
  destruct (Qlt_bool 60.0 g) eqn:E.
  - left. apply Qlt_bool_iff in E. split; [lra | reflexivity].
  - right. split; [|reflexivity].
    apply Qnot_lt_le. intros H.
    assert (Qlt_bool 60.0 g = true) by (apply Qlt_bool_iff; lra). congruence.
Qed.


Lemma are_nette_nonneg (g : Q) : 0 <= g → 0 <= are_nette g.
Proof. intros H. destruct (are_nette_cases g) as [[? ->]|[? ->]]; lra. Qed.

(** ** Floors and monotonicity of the gross amount *)

Lemma grossDaily_technician_floor (salary hours : Q) :
  38.34 <= Spec.grossDaily_technician salary hours.
Proof. unfold Spec.grossDaily_technician. apply Q.le_max_r. Qed.

Lemma grossDaily_artist_floor (sjr cachets : Q) :
  44.43 <= Spec.grossDaily_artist sjr cachets.
Proof. unfold Spec.grossDaily_artist. apply Q.le_max_r. Qed.

Lemma salaryPart_mono (s1 s2 : Q) :
  s1 <= s2 → Spec.salaryPart s1 <= Spec.salaryPart s2.
Proof.
  intros H. unfold Spec.salaryPart, Spec.minimumDailyAllowance.
  inv_consts.
  destruct (Q.min_spec s1 14400) as [[? E1]|[? E1]];
    destruct (Q.min_spec s2 14400) as [[? E2]|[? E2]];
    destruct (Q.max_spec 0 (s1 - 14400)) as [[? E3]|[? E3]];
    destruct (Q.max_spec 0 (s2 - 14400)) as [[? E4]|[? E4]];
    rewrite E1, E2, E3, E4; lra.
Qed.

Lemma grossDaily_technician_mono (s1 s2 hours : Q) :
  s1 <= s2 →
  Spec.grossDaily_technician s1 hours <= Spec.grossDaily_technician s2 hours.
Proof.
  intros H. unfold Spec.grossDaily_technician.
  apply Q.max_le_compat_r. pose proof (salaryPart_mono _ _ H). lra.
Qed.

Lemma grossDaily_artist_mono (w1 w2 cachets : Q) :
  w1 <= w2 →
  Spec.grossDaily_artist w1 cachets <= Spec.grossDaily_artist w2 cachets.
Proof.
  intros H. unfold Spec.grossDaily_artist.
  apply Q.max_le_compat_r.
  assert (Qmax Spec.minimumDailyAllowance (0.70 * w1) <=
          Qmax Spec.minimumDailyAllowance (0.70 * w2)).
  { apply Q.max_le_compat_l. lra. }
  lra.
Qed.

Lemma sjr_mono (s1 s2 : Q) (jours : Z) :
  s1 <= s2 →
  (if (0 <? jours)%Z then s1 / inject_Z jours else 0) <=
  (if (0 <? jours)%Z then s2 / inject_Z jours else 0).
Proof.
  intros H. destruct (Z.ltb_spec 0 jours) as [Hj|Hj]; [|lra].
  unfold Qdiv. apply Qmult_le_compat_r; [done|].
  apply Qinv_le_0_compat. unfold Qle. simpl. lia.
Qed.

(** * The claims *)

Section UnsupportedCategory.

Variables (salaire : Q) (heures cachets jours : Z).

(** C1.  An annexe other than 8 and 10 never reaches the [else] branch
    that shows "Annexe non supportée." and returns the zeroed result:
    the lookup [PARAMS[annexe]] on the first line raises [KeyError], and
    nothing has been passed to [st.error] by then. *)
Theorem calculer_are_unsupported_raises (annexe : Z) :
  annexe ≠ 8%Z → annexe ≠ 10%Z →
  calculer_are annexe salaire heures cachets jours =
    (Raised (KeyError annexe), []).
Proof.
  intros H8 H10. unfold calculer_are.
  by rewrite PARAMS_getitem_other.
Qed.

(** No call of [calculer_are] shows an error message or returns the
    zeroed result. *)
Lemma zeroed_result_unreachable (annexe : Z) (o : outcome are_result)
    (shown : list string) :
  calculer_are annexe salaire heures cachets jours = (o, shown) →
  shown = [] ∧ o ≠ Returned {| net := 0; brut := 0; details := ∅ |}.
Proof.
  intros H.
  destruct (decide (annexe = 8%Z)) as [->|H8].
  { destruct (calculer_are_8 salaire heures cachets jours)
      as (g & d & _ & _ & E).
    rewrite E in H. inversion H; subst. split; [done|].
    intros Heq.
    apply (f_equal (λ o, match o with
                         | Returned r => details r
                         | Raised _ => ∅
                         end)) in Heq.
    simpl in Heq. by apply insert_non_empty in Heq. }
  destruct (decide (annexe = 10%Z)) as [->|H10].
  { destruct (calculer_are_10 salaire heures cachets jours)
      as (g & d & _ & _ & E).
    rewrite E in H. inversion H; subst. split; [done|].
    intros Heq.
    apply (f_equal (λ o, match o with
                         | Returned r => details r
                         | Raised _ => ∅
                         end)) in Heq.
    simpl in Heq. by apply insert_non_empty in Heq. }
  unfold calculer_are in H. rewrite PARAMS_getitem_other in H by done.
  inversion H; subst. by split.
Qed.

End UnsupportedCategory.

Lemma calculer_are_annexe7_raises :
  (7 ≠ 8)%Z ∧ (7 ≠ 10)%Z ∧
  calculer_are 7 8536.59 732 61 319 = (Raised (KeyError 7), []).
Proof.
  split; [lia | split; [lia |]].
  apply calculer_are_unsupported_raises; lia.
Defined.

Section Technician.

Variables (salaire : Q) (heures : Z).


End Technician.

Section Floors.

Variables (salaire : Q) (heures cachets jours : Z).

(** C6.  Whatever the numeric inputs (the non-negative ones in particular),
    the gross daily benefit that [calculer_are] returns is at least the
    floor of the category: 38.34 under Annexe 8 and 44.43 under Annexe 10. *)
Theorem brut_at_least_floor (c : Spec.Category) :
  ∃ r,
    calculer_are (Spec.annexe_of c) salaire heures cachets jours =
      (Returned r, []) ∧
    Spec.floor_of c <= brut r.
Proof.
  destruct c; cbn [Spec.annexe_of Spec.floor_of].
  - destruct (calculer_are_8 salaire heures cachets jours)
      as (g & d & _ & Eg & E).
    eexists. split; [exact E|]. cbn [brut].
    unfold Spec.technicianFloor.
    rewrite <- (py_round2_hundredths 3834).
    apply py_round2_mono. rewrite Eg.
    apply grossDaily_technician_floor.
  - destruct (calculer_are_10 salaire heures cachets jours)
      as (g & d & _ & Eg & E).
    eexists. split; [exact E|]. cbn [brut].
    unfold Spec.artistFloor.
    rewrite <- (py_round2_hundredths 4443).
    apply py_round2_mono. rewrite Eg.
    apply grossDaily_artist_floor.
Qed.

End Floors.

Section Monotonicity.

Variables (heures cachets jours : Z).

(** C8.  With the category, the hours, the cachets and the reference days
    fixed, a larger reference salary never gives a smaller gross daily
    benefit. *)
Theorem brut_monotone_in_salary (c : Spec.Category) (s1 s2 : Q) :
  s1 <= s2 →
  ∃ r1 r2,
    calculer_are (Spec.annexe_of c) s1 heures cachets jours =
      (Returned r1, []) ∧
    calculer_are (Spec.annexe_of c) s2 heures cachets jours =
      (Returned r2, []) ∧
    brut r1 <= brut r2.
Proof.
  intros Hs. destruct c; cbn [Spec.annexe_of].
  - destruct (calculer_are_8 s1 heures cachets jours)
      as (g1 & d1 & _ & Eg1 & E1).
    destruct (calculer_are_8 s2 heures cachets jours)
      as (g2 & d2 & _ & Eg2 & E2).
    eexists _, _. split; [exact E1|]. split; [exact E2|]. cbn [brut].
    apply py_round2_mono. rewrite Eg1, Eg2.
    by apply grossDaily_technician_mono.
  - destruct (calculer_are_10 s1 heures cachets jours)
      as (g1 & d1 & _ & Eg1 & E1).
    destruct (calculer_are_10 s2 heures cachets jours)
      as (g2 & d2 & _ & Eg2 & E2).
    eexists _, _. split; [exact E1|]. split; [exact E2|]. cbn [brut].
    apply py_round2_mono. rewrite Eg1, Eg2.
    apply grossDaily_artist_mono. by apply sjr_mono.
Qed.

End Monotonicity.

(** A technician whose reference salary goes from 15000 to 20000. *)
Lemma brut_monotone_in_salary_witness :
  15000 <= 20000 ∧
  ∃ r1 r2,
    calculer_are 8 15000 800 0 365 = (Returned r1, []) ∧
    calculer_are 8 20000 800 0 365 = (Returned r2, []) ∧
    brut r1 <= brut r2.
Proof.
  split; [lra|].
  apply (brut_monotone_in_salary 800 0 365 Spec.Technician 15000 20000). lra.
Defined.

(** ** Rounding error *)

Lemma round_half_even_error (x : Q) :
  x - (1 # 2) <= inject_Z (round_half_even x) <= x + (1 # 2).
Proof.
  pose proof (Qfloor_le x) as Hlo. pose proof (Qlt_floor x) as Hhi.
  rewrite inject_Z_plus in Hhi. change (inject_Z 1) with 1 in Hhi.
  unfold round_half_even.
  destruct (Qcompare (x - inject_Z (Qfloor x)) (1 # 2)) eqn:C.
  - apply Qeq_alt in C.
    destruct (Z.even (Qfloor x)); [|rewrite inject_Z_plus];
      change (inject_Z 1) with 1; lra.
  - apply Qlt_alt in C. lra.
  - apply Qgt_alt in C. rewrite inject_Z_plus. change (inject_Z 1) with 1. lra.
Qed.


Section NetAndGross.

Variables (salaire : Q) (heures cachets jours : Z).


End NetAndGross.



(** ** The two worked scenarios *)

(** C2, with the figures the code produces.  For a technician with salary
    15000 and 800 hours over 365 days, whatever the number of cachets:
    part A is 38.55, part B 12.11, part C 12.68; the gross amount is 63.34;
    it exceeds 60, so the net amount is the gross times 0.933, 59.10 once
    rounded; no annualisation divisor is applied. *)
Theorem scenario_technician (cachets : Z) :
  ∃ r g d,
    brute_annexe8 PARAMS_8 15000 800 = (Returned (g, d), []) ∧
    calculer_are 8 15000 800 cachets 365 = (Returned r, []) ∧
    details r !! "partie_a" = Some (VFloat 38.55) ∧
    details r !! "partie_b" = Some (VFloat 12.11) ∧
    details r !! "partie_c" = Some (VFloat 12.68) ∧
    brut r = 63.34 ∧
    SMIC_JOURNALIER < g ∧
    net r = py_round2 (g * 0.933) ∧
    net r = 59.10 ∧
    details r !! "diviseur_annualisation_applique" =
      Some (VStr "Non applicable").
Proof.
  destruct (calculer_are_8 15000 800 cachets 365) as (g & d & Hg & _ & E).
  eexists _, g, d. split; [exact Hg|]. split; [exact E|].
  vm_compute in Hg. injection Hg as <- <-. cbn [net brut details].
  repeat split; by vm_compute.
Qed.

(** C2, as stated, fails: the code does not report 38.30, 12.06, 63.04 and
    58.82 but 38.55, 12.11, 63.34 and 59.10; gross and net are more than a
    cent away from the stated figures. *)
Lemma scenario_technician_not_as_stated :
  ∃ r,
    calculer_are 8 15000 800 0 365 = (Returned r, []) ∧
    details r !! "partie_a" ≠ Some (VFloat 38.30) ∧
    details r !! "partie_b" ≠ Some (VFloat 12.06) ∧
    ¬ Qabs (brut r - 63.04) <= 0.01 ∧
    ¬ Qabs (net r - 58.82) <= 0.01.
Proof.
  eexists. split; [by vm_compute|]. cbn [net brut details].
  repeat split; by vm_compute.
Qed.

(** C4, with the figures the code produces.  For an artist with salary
    8536.59, 732 hours and 61 cachets over 319 days: the daily reference
    wage is 26.76 and 70% of it 18.73; part A is 31.71, part B 62.37; the
    gross amount is 94.08; the net amount before the divisor is 87.78, and
    the final net amount, after division by 1.76, is 49.87. *)
Theorem scenario_artist :
  ∃ r,
    calculer_are 10 8536.59 732 61 319 = (Returned r, []) ∧
    details r !! "sjr" = Some (VFloat 26.76) ∧
    details r !! "partie_sjr_70pc" = Some (VFloat 18.73) ∧
    details r !! "partie_a_grok_final" = Some (VFloat 31.71) ∧
    details r !! "partie_b_grok_cachets" = Some (VFloat 62.37) ∧
    brut r = 94.08 ∧
    details r !! "are_nette_avant_diviseur" = Some (VFloat 87.78) ∧
    details r !! "diviseur_annualisation_applique" = Some (VFloat 1.76) ∧
    net r = 49.87.
Proof.
  eexists. split; [by vm_compute|]. cbn [net brut details].
  repeat split; by vm_compute.
Qed.

(** C4, as stated, fails on its last two figures: the net amount before
    the divisor is 87.78, not 87.74, and the final net amount is 49.87, more
    than a cent away from 49.85. *)
Lemma scenario_artist_not_as_stated :
  ∃ r,
    calculer_are 10 8536.59 732 61 319 = (Returned r, []) ∧
    details r !! "are_nette_avant_diviseur" ≠ Some (VFloat 87.74) ∧
    net r = 49.87 ∧
    ¬ Qabs (net r - 49.85) <= 0.01.
Proof.
  eexists. split; [by vm_compute|]. cbn [net brut details].
  repeat split; by vm_compute.
Qed.

(** ** The reference period *)

Section ReferencePeriod.

Variables (salaire : Q) (jours : Z).


End ReferencePeriod.


(** ** Non-indemnified days *)

Lemma calcul_jni_annexe10 (heures_totales jours_mois : Z) :
  calcul_jni 10 heures_totales jours_mois =
  Z.min (Qceiling (inject_Z heures_totales * 1.3 / 10)) jours_mois.
Proof. unfold calcul_jni, math_ceil. apply py_min_int_Zmin. Qed.

Lemma calcul_jni_not_annexe10 (annexe heures_totales jours_mois : Z) :
  annexe ≠ 10%Z →
  calcul_jni annexe heures_totales jours_mois =
  Z.min (Qceiling (inject_Z heures_totales * 1.4 / 8)) jours_mois.
Proof.
  intros H. unfold calcul_jni, math_ceil.
  destruct (Z.eqb_spec annexe 10); [done|]. apply py_min_int_Zmin.
Qed.

(** The two ceilings in integer arithmetic. *)
Lemma ceil_technicien (h : Z) :
  math_ceil (inject_Z h * 1.4 / 8) = ((7 * h + 39) / 40)%Z.
Proof.
  unfold math_ceil, Qceiling, Qfloor. simpl.
  change (Z.pos (1 * 10 * 8)) with 80%Z.
  Z.div_mod_to_equations. lia.
Qed.

Lemma ceil_artiste (h : Z) :
  math_ceil (inject_Z h * 1.3 / 10) = ((13 * h + 99) / 100)%Z.
Proof.
  unfold math_ceil, Qceiling, Qfloor. simpl.
  change (Z.pos (1 * 10 * 10)) with 100%Z.
  Z.div_mod_to_equations. lia.
Qed.

Lemma calcul_jni_integer (annexe heures_totales jours_mois : Z) :
  calcul_jni annexe heures_totales jours_mois =
  if (annexe =? 10)%Z
  then Z.min ((13 * heures_totales + 99) / 100) jours_mois
  else Z.min ((7 * heures_totales + 39) / 40) jours_mois.
Proof.
  unfold calcul_jni. rewrite ceil_technicien, ceil_artiste.
  destruct (annexe =? 10)%Z; apply py_min_int_Zmin.
Qed.

Section MonthlySimulator.

Variables (heures_mois jours_mois : Z).

(** C7.  For both categories [calcul_jni] is the specification's
    [ceil(totalHours * factor / divisor)] capped at the days of the month,
    with (1.3, 10) for artists and (1.4, 8) for technicians, so it never
    exceeds the days of the month; this holds for all hours and days, the
    non-negative hours and positive days in particular.  For a technician
    with 143 hours, all from a fixed-term contract, in a month of 30 days
    there are 26 non-indemnified days and 4 indemnifiable days, and the
    monthly benefit is 4 times the daily benefit entered. *)
Theorem calcul_jni_formula :
  (∀ c : Spec.Category,
     calcul_jni (Spec.annexe_of c) heures_mois jours_mois =
       Spec.nonIndemnifiedDays c heures_mois jours_mois ∧
     (calcul_jni (Spec.annexe_of c) heures_mois jours_mois ≤ jours_mois)%Z) ∧
  calcul_jni 10 heures_mois jours_mois =
    Z.min (Qceiling (inject_Z heures_mois * 1.3 / 10)) jours_mois ∧
  calcul_jni 8 heures_mois jours_mois =
    Z.min (Qceiling (inject_Z heures_mois * 1.4 / 8)) jours_mois ∧
  (∀ (heures_cachet : Z) (are_journaliere_override : Q),
     heures_totales 0 heures_cachet 0 0 0 143 = 143%Z ∧
     simuler_mois 8 143 30 are_journaliere_override =
       {| jni := 26; jours_indem := 4;
          are_mensuelle := are_journaliere_override * 4 |} ∧
     jours_indem (simuler_mois 8 143 30 are_journaliere_override) =
       Spec.indemnifiableDays 30 26).
Proof.
  split; [|split; [|split]].
  - intros []; cbn [Spec.annexe_of]; unfold Spec.nonIndemnifiedDays.
    + rewrite calcul_jni_not_annexe10 by done. split; [reflexivity | lia].
    + rewrite calcul_jni_annexe10. split; [reflexivity | lia].
  - apply calcul_jni_annexe10.
  - by apply calcul_jni_not_annexe10.
  - intros heures_cachet o. split; [unfold heures_totales; lia|].
    split; reflexivity.
Qed.

End MonthlySimulator.

(** C10.  [calcul_jni] does not check the annexe: every value other than
    10, whether 8 or not, gets the technician formula
    [min(ceil(hours * 1.4 / 8), daysInMonth)]. *)
Theorem calcul_jni_no_validation (annexe heures_mois jours_mois : Z) :
  annexe ≠ 10%Z →
  calcul_jni annexe heures_mois jours_mois =
    Z.min (Qceiling (inject_Z heures_mois * 1.4 / 8)) jours_mois ∧
  calcul_jni annexe heures_mois jours_mois =
    calcul_jni 8 heures_mois jours_mois.
Proof.
  intros H. split.
  - by apply calcul_jni_not_annexe10.
  - by rewrite !calcul_jni_not_annexe10.
Qed.

(** Annexe 7, which [calculer_are] does not accept. *)
Lemma calcul_jni_no_validation_witness :
  (7 ≠ 10)%Z ∧ calcul_jni 7 143 30 = 26%Z ∧
  calcul_jni 7 143 30 = calcul_jni 8 143 30.
Proof.
  split; [lia|].
  destruct (calcul_jni_no_validation 7 143 30 ltac:(lia)) as [H1 H2].
  split; [exact H1 | exact H2].
Defined.

(** * Further properties of the calculator *)

(** ** Which calls return *)


(** A call that returns: no message, and not the zeroed result. *)
Lemma zeroed_result_unreachable_witness :
  (calculer_are 8 15000 800 0 365).2 = [] ∧
  (calculer_are 8 15000 800 0 365).1 ≠
    Returned {| net := 0; brut := 0; details := ∅ |}.
Proof.
  apply (zeroed_result_unreachable 15000 800 0 365 8).
  by destruct (calculer_are 8 15000 800 0 365).
Defined.

(** ** Inputs that play no part *)

(** Under Annexe 8 neither the cachets nor the reference days matter: the
    daily reference wage is computed and then left unused. *)
Theorem technician_ignores_cachets_and_days (salaire : Q)
    (heures cachets cachets' jours jours' : Z) :
  calculer_are 8 salaire heures cachets jours =
  calculer_are 8 salaire heures cachets' jours'.
Proof.
  destruct (calculer_are_8 salaire heures cachets jours)
    as (g & d & Hg & _ & ->).
  destruct (calculer_are_8 salaire heures cachets' jours')
    as (g' & d' & Hg' & _ & ->).
  rewrite Hg in Hg'. by injection Hg' as <- <-.
Qed.

(** Under Annexe 10 the hours worked do not matter. *)
Theorem artist_ignores_hours (salaire : Q) (heures heures' cachets jours : Z) :
  calculer_are 10 salaire heures cachets jours =
  calculer_are 10 salaire heures' cachets jours.
Proof.
  destruct (calculer_are_10 salaire heures cachets jours)
    as (g & d & Hg & _ & ->).
  destruct (calculer_are_10 salaire heures' cachets jours)
    as (g' & d' & Hg' & _ & ->).
  rewrite Hg in Hg'. by injection Hg' as <- <-.
Qed.

Lemma py_max_l (a b : Q) : b <= a → py_max a b = a.
Proof.
  intros H. destruct (py_max_cases a b) as [[? _]|[_ ->]]; [lra | done].
Qed.

Lemma sjr_below_AJ (salaire : Q) (jours : Z) :
  (jours ≤ 0)%Z ∨ 0.70 * salaire <= AJ_MINIMALE * inject_Z jours →
  0.70 * (if (0 <? jours)%Z then salaire / inject_Z jours else 0)
    <= AJ_MINIMALE.
Proof.
  unfold AJ_MINIMALE.
  intros H. destruct (Z.ltb_spec 0 jours) as [Hj|Hj]; [|lra].
  destruct H as [H|H]; [lia|].
  assert (0 < inject_Z jours) by (unfold Qlt; simpl; lia).
  assert (E : 0.70 * (salaire / inject_Z jours) ==
              (0.70 * salaire) / inject_Z jours) by (field; lra).
  rewrite E. apply Qle_shift_div_r; [done | lra].
Qed.



(** ** Monotonicity in the other inputs *)

Lemma hoursPart_mono (h1 h2 : Q) :
  h1 <= h2 → Spec.hoursPart h1 <= Spec.hoursPart h2.
Proof.
  intros H. unfold Spec.hoursPart, Spec.minimumDailyAllowance.
  inv_consts.
  destruct (Q.min_spec h1 720) as [[? E1]|[? E1]];
    destruct (Q.min_spec h2 720) as [[? E2]|[? E2]];
    destruct (Q.max_spec 0 (h1 - 720)) as [[? E3]|[? E3]];
    destruct (Q.max_spec 0 (h2 - 720)) as [[? E4]|[? E4]];
    rewrite E1, E2, E3, E4; lra.
Qed.

Lemma inject_Z_le (a b : Z) : (a ≤ b)%Z → inject_Z a <= inject_Z b.
Proof. intros H. unfold Qle. simpl. lia. Qed.

(** Under Annexe 8, more hours never give a smaller gross daily benefit. *)
Theorem brut_monotone_in_hours (salaire : Q) (h1 h2 cachets jours : Z) :
  (h1 ≤ h2)%Z →
  ∃ r1 r2,
    calculer_are 8 salaire h1 cachets jours = (Returned r1, []) ∧
    calculer_are 8 salaire h2 cachets jours = (Returned r2, []) ∧
    brut r1 <= brut r2.
Proof.
  intros H.
  destruct (calculer_are_8 salaire h1 cachets jours) as (g1 & d1 & _ & E1 & ->).
  destruct (calculer_are_8 salaire h2 cachets jours) as (g2 & d2 & _ & E2 & ->).
  eexists _, _. split; [done|]. split; [done|]. cbn [brut].
  apply py_round2_mono. rewrite E1, E2. unfold Spec.grossDaily_technician.
  apply Q.max_le_compat_r.
  pose proof (hoursPart_mono _ _ (inject_Z_le _ _ H)). lra.
Qed.

Lemma brut_monotone_in_hours_witness :
  (700 ≤ 800)%Z ∧
  ∃ r1 r2,
    calculer_are 8 15000 700 0 365 = (Returned r1, []) ∧
    calculer_are 8 15000 800 0 365 = (Returned r2, []) ∧
    brut r1 <= brut r2.
Proof.
  split; [lia|]. apply brut_monotone_in_hours. lia.
Defined.

(** Under Annexe 10, more cachets never give a smaller gross daily
    benefit. *)
Theorem brut_monotone_in_cachets (salaire : Q) (heures c1 c2 jours : Z) :
  (c1 ≤ c2)%Z →
  ∃ r1 r2,
    calculer_are 10 salaire heures c1 jours = (Returned r1, []) ∧
    calculer_are 10 salaire heures c2 jours = (Returned r2, []) ∧
    brut r1 <= brut r2.
Proof.
  intros H.
  destruct (calculer_are_10 salaire heures c1 jours) as (g1 & d1 & _ & E1 & ->).
  destruct (calculer_are_10 salaire heures c2 jours) as (g2 & d2 & _ & E2 & ->).
  eexists _, _. split; [done|]. split; [done|]. cbn [brut].
  apply py_round2_mono. rewrite E1, E2. unfold Spec.grossDaily_artist.
  apply Q.max_le_compat_r.
  pose proof (inject_Z_le _ _ H). inv_consts. lra.
Qed.

Lemma brut_monotone_in_cachets_witness :
  (43 ≤ 61)%Z ∧
  ∃ r1 r2,
    calculer_are 10 8536.59 732 43 319 = (Returned r1, []) ∧
    calculer_are 10 8536.59 732 61 319 = (Returned r2, []) ∧
    brut r1 <= brut r2.
Proof.
  split; [lia|]. apply brut_monotone_in_cachets. lia.
Defined.

(** Under Annexe 10, with a non-negative salary, a longer reference period
    never gives a larger gross daily benefit. *)
Theorem brut_antitone_in_reference_days (salaire : Q)
    (heures cachets j1 j2 : Z) :
  0 <= salaire → (0 < j1)%Z → (j1 ≤ j2)%Z →
  ∃ r1 r2,
    calculer_are 10 salaire heures cachets j1 = (Returned r1, []) ∧
    calculer_are 10 salaire heures cachets j2 = (Returned r2, []) ∧
    brut r2 <= brut r1.
Proof.
  intros Hs Hj1 Hj.
  destruct (calculer_are_10 salaire heures cachets j1)
    as (g1 & d1 & _ & E1 & ->).
  destruct (calculer_are_10 salaire heures cachets j2)
    as (g2 & d2 & _ & E2 & ->).
  eexists _, _. split; [done|]. split; [done|]. cbn [brut].
  apply py_round2_mono. rewrite E1, E2.
  apply grossDaily_artist_mono.
  destruct (Z.ltb_spec 0 j1); [|lia]. destruct (Z.ltb_spec 0 j2); [|lia].
  assert (0 < inject_Z j1) by (unfold Qlt; simpl; lia).
  assert (0 < inject_Z j2) by (unfold Qlt; simpl; lia).
  pose proof (inject_Z_le _ _ Hj).
  apply Qle_shift_div_l; [done|].
  assert (E : salaire / inject_Z j2 * inject_Z j1 ==
              salaire * (inject_Z j1 / inject_Z j2)) by (field; lra).
  rewrite E.
  assert (inject_Z j1 / inject_Z j2 <= 1).
  { apply Qle_shift_div_r; [done | lra]. }
  nra.
Qed.

Lemma brut_antitone_in_reference_days_witness :
  0 <= 20000 ∧ (0 < 319)%Z ∧ (319 ≤ 365)%Z ∧
  ∃ r1 r2,
    calculer_are 10 20000 732 61 319 = (Returned r1, []) ∧
    calculer_are 10 20000 732 61 365 = (Returned r2, []) ∧
    brut r2 <= brut r1.
Proof.
  split; [lra|]. split; [lia|]. split; [lia|].
  apply brut_antitone_in_reference_days; [lra | lia | lia].
Defined.

(** ** The net amount *)

(** The net daily benefit has a floor too: 38.34 under Annexe 8, where the
    deduction only applies above 60, and 44.43 / 1.76, that is 25.24, under
    Annexe 10. *)
Theorem net_at_least_floor (salaire : Q) (heures cachets jours : Z) :
  (∃ r, calculer_are 8 salaire heures cachets jours = (Returned r, []) ∧
        38.34 <= net r) ∧
  (∃ r, calculer_are 10 salaire heures cachets jours = (Returned r, []) ∧
        25.24 <= net r).
Proof.
  split.
  - destruct (calculer_are_8 salaire heures cachets jours)
      as (g & d & _ & Eg & ->).
    pose proof (grossDaily_technician_floor salaire (inject_Z heures)) as Hf.
    rewrite <- Eg in Hf.
    eexists. split; [done|]. cbn [net].
    rewrite <- (py_round2_hundredths 3834). apply py_round2_mono.
    destruct (are_nette_cases g) as [[? ->]|[? ->]]; lra.
  - destruct (calculer_are_10 salaire heures cachets jours)
      as (g & d & _ & Eg & ->).
    pose proof (grossDaily_artist_floor
                  (if (0 <? jours)%Z then salaire / inject_Z jours else 0)
                  (inject_Z cachets)) as Hf.
    rewrite <- Eg in Hf.
    eexists. split; [done|]. cbn [net].
    change 25.24 with (py_round2 (44.43 / 1.76)). apply py_round2_mono.
    destruct (are_nette_cases g) as [[? ->]|[? ->]]; inv_consts; lra.
Qed.

(** The net amount does not follow the gross amount across the threshold
    of 60: of two technicians, one with a gross amount of at most 60 and one
    above 60 whose gross times 0.933 is no more than the first one's gross,
    the second has the larger gross and the smaller net. *)
Theorem net_drops_across_threshold (s1 s2 : Q) (h1 h2 c1 c2 j1 j2 : Z)
    (g1 g2 : Q) (d1 d2 : gmap string pyval) :
  brute_annexe8 PARAMS_8 s1 h1 = (Returned (g1, d1), []) →
  brute_annexe8 PARAMS_8 s2 h2 = (Returned (g2, d2), []) →
  g1 <= SMIC_JOURNALIER → SMIC_JOURNALIER < g2 → g2 * 0.933 <= g1 →
  ∃ r1 r2,
    calculer_are 8 s1 h1 c1 j1 = (Returned r1, []) ∧
    calculer_are 8 s2 h2 c2 j2 = (Returned r2, []) ∧
    brut r1 <= brut r2 ∧ net r2 <= net r1.
Proof.
  unfold SMIC_JOURNALIER. intros Hg1 Hg2 H1 H2 H.
  destruct (calculer_are_8 s1 h1 c1 j1) as (g1' & d1' & Hg1' & _ & ->).
  destruct (calculer_are_8 s2 h2 c2 j2) as (g2' & d2' & Hg2' & _ & ->).
  rewrite Hg1 in Hg1'. injection Hg1' as <- <-.
  rewrite Hg2 in Hg2'. injection Hg2' as <- <-.
  eexists _, _. split; [done|]. split; [done|]. cbn [net brut].
  split; apply py_round2_mono; [lra|].
  destruct (are_nette_cases g1) as [[? ->]|[? ->]];
    destruct (are_nette_cases g2) as [[? ->]|[? ->]]; lra.
Qed.

(** 800 hours, and a salary of 13200 or 13300: the gross amount goes from
    59.95 to 60.22 and the net amount from 59.95 down to 56.18. *)
Lemma net_drops_across_threshold_witness :
  ∃ r1 r2,
    calculer_are 8 13200 800 0 365 = (Returned r1, []) ∧
    calculer_are 8 13300 800 0 365 = (Returned r2, []) ∧
    brut r1 <= brut r2 ∧ net r2 <= net r1 ∧
    brut r1 = 59.95 ∧ brut r2 = 60.22 ∧ net r1 = 59.95 ∧ net r2 = 56.18.
Proof.
  destruct (brute_annexe8 PARAMS_8 13200 800) as [[[g1 d1]|] [|]] eqn:E1;
    try (vm_compute in E1; discriminate).
  destruct (brute_annexe8 PARAMS_8 13300 800) as [[[g2 d2]|] [|]] eqn:E2;
    try (vm_compute in E2; discriminate).
  assert (H1 : g1 <= SMIC_JOURNALIER).
  { vm_compute in E1. injection E1 as <- _. by vm_compute. }
  assert (H2 : SMIC_JOURNALIER < g2).
  { vm_compute in E2. injection E2 as <- _. by vm_compute. }
  assert (H : g2 * 0.933 <= g1).
  { vm_compute in E1. injection E1 as <- _.
    vm_compute in E2. injection E2 as <- _. by vm_compute. }
  destruct (net_drops_across_threshold 13200 13300 800 800 0 0 365 365
              g1 g2 d1 d2 E1 E2 H1 H2 H) as (r1 & r2 & R1 & R2 & Hb & Hn).
  exists r1, r2. split; [exact R1|]. split; [exact R2|].
  split; [exact Hb|]. split; [exact Hn|].
  vm_compute in R1. injection R1 as <-.
  vm_compute in R2. injection R2 as <-.
  by vm_compute.
Defined.

(** The threshold is tested on the gross amount before rounding: a
    technician whose gross amount lies strictly between 60 and 60.005 is
    shown a gross amount of 60.00 and still gets the deduction, for a net
    amount of 55.98. *)
Theorem deduction_on_unrounded_gross (salaire : Q)
    (heures cachets jours : Z) (g : Q) (d : gmap string pyval) :
  brute_annexe8 PARAMS_8 salaire heures = (Returned (g, d), []) →
  SMIC_JOURNALIER < g → g < 60.005 →
  ∃ r,
    calculer_are 8 salaire heures cachets jours = (Returned r, []) ∧
    brut r = 60.00 ∧ net r = 55.98.
Proof.
  unfold SMIC_JOURNALIER. intros Hg H1 H2.
  destruct (calculer_are_8 salaire heures cachets jours)
    as (g' & d' & Hg' & _ & ->).
  rewrite Hg in Hg'. injection Hg' as <- <-.
  eexists. split; [done|]. cbn [net brut].
  destruct (are_nette_cases g) as [[_ ->]|[? _]]; [|lra].
  unfold py_round2. split; f_equal.
  - pose proof (round_half_even_error (g * 100)) as [Hlo Hhi].
    assert (inject_Z 5999 < inject_Z (round_half_even (g * 100)))
      by (change (inject_Z 5999) with 5999; lra).
    assert (inject_Z (round_half_even (g * 100)) < inject_Z 6001)
      by (change (inject_Z 6001) with 6001; lra).
    rewrite <- Zlt_Qlt in *. lia.
  - pose proof (round_half_even_error (g * 0.933 * 100)) as [Hlo Hhi].
    assert (inject_Z 5597 < inject_Z (round_half_even (g * 0.933 * 100)))
      by (change (inject_Z 5597) with 5597; lra).
    assert (inject_Z (round_half_even (g * 0.933 * 100)) < inject_Z 5599)
      by (change (inject_Z 5599) with 5599; lra).
    rewrite <- Zlt_Qlt in *. lia.
Qed.

(** 800 hours and a salary of 13218: the gross amount is 60.000585. *)
Lemma deduction_on_unrounded_gross_witness :
  ∃ r,
    calculer_are 8 13218 800 0 365 = (Returned r, []) ∧
    brut r = 60.00 ∧ net r = 55.98.
Proof.
  destruct (brute_annexe8 PARAMS_8 13218 800) as [[[g d]|] [|]] eqn:E;
    try (vm_compute in E; discriminate).
  apply (deduction_on_unrounded_gross 13218 800 0 365 g d E).
  - vm_compute in E. injection E as <- _. by vm_compute.
  - vm_compute in E. injection E as <- _. by vm_compute.
Defined.

(** ** The floor of Annexe 10 *)

(** An artist with at most 12 cachets whose daily reference wage does not
    lift part A above 31.71 gets exactly the floor: 44.43 gross and 25.24
    net, whatever the salary and the cachets. *)
Theorem artist_floor_below_13_cachets (salaire : Q)
    (heures cachets jours : Z) :
  (cachets ≤ 12)%Z →
  (jours ≤ 0)%Z ∨ 0.70 * salaire <= AJ_MINIMALE * inject_Z jours →
  ∃ r,
    calculer_are 10 salaire heures cachets jours = (Returned r, []) ∧
    brut r = 44.43 ∧ net r = 25.24.
Proof.
  intros Hc H.
  destruct (calculer_are_10 salaire heures cachets jours)
    as (g' & d & Hg & _ & ->).
  destruct (brute_annexe10_value
              (if (0 <? jours)%Z then salaire / inject_Z jours else 0)
              cachets) as [Hv _].
  rewrite Hv in Hg. injection Hg as <- _.
  rewrite (py_max_l AJ_MINIMALE) by (by apply sjr_below_AJ).
  assert (E : py_max (AJ_MINIMALE + 12.27 * inject_Z cachets / 12) 44.43
              = 44.43).
  { destruct (py_max_cases (AJ_MINIMALE + 12.27 * inject_Z cachets / 12) 44.43)
      as [[_ ->]|[Hle _]]; [done|].
    pose proof (inject_Z_le _ _ Hc) as Hq. change (inject_Z 12) with 12 in Hq.
    unfold AJ_MINIMALE in Hle. inv_consts. lra. }
  rewrite E. eexists. split; [done|]. by split.
Qed.

(** The smallest inputs the calculator page accepts. *)
Lemma artist_floor_below_13_cachets_witness :
  (0 ≤ 12)%Z ∧ 0.70 * 1000 <= AJ_MINIMALE * inject_Z 319 ∧
  ∃ r,
    calculer_are 10 1000 10 0 319 = (Returned r, []) ∧
    brut r = 44.43 ∧ net r = 25.24.
Proof.
  assert (H : 0.70 * 1000 <= AJ_MINIMALE * inject_Z 319) by (by vm_compute).
  split; [lia|]. split; [exact H|].
  apply artist_floor_below_13_cachets; [lia | by right].
Defined.



(** * Further properties of the monthly simulator *)

Lemma calcul_jni_le (annexe h d : Z) : (calcul_jni annexe h d ≤ d)%Z.
Proof. rewrite calcul_jni_integer. destruct (annexe =? 10)%Z; lia. Qed.

Lemma jours_indem_value (annexe h d : Z) (o : Q) :
  jours_indem (simuler_mois annexe h d o) = (d - calcul_jni annexe h d)%Z.
Proof.
  cbn [simuler_mois jours_indem]. rewrite py_max_int_Zmax.
  pose proof (calcul_jni_le annexe h d). lia.
Qed.

(** Every day of the month is either non-indemnified or indemnifiable: the
    two counts add up to the days of the month, for all inputs, and the
    [max(..., 0)] of the page never takes effect. *)
Theorem jni_and_jours_indem_partition (annexe h d : Z) (o : Q) :
  let m := simuler_mois annexe h d o in
  (jni m + jours_indem m = d)%Z ∧
  (0 ≤ jours_indem m)%Z ∧
  are_mensuelle m = o * inject_Z (d - jni m).
Proof.
  intros m. subst m. pose proof (jours_indem_value annexe h d o) as Hj.
  pose proof (calcul_jni_le annexe h d).
  cbn [simuler_mois jni jours_indem are_mensuelle] in *.
  rewrite Hj. repeat split; lia.
Qed.

(** With non-negative hours and days, all the figures of the month are
    within bounds: the day counts between 0 and the days of the month, and,
    for a non-negative daily benefit, the monthly benefit between 0 and a
    full month of it. *)
Theorem mois_bounds (annexe h d : Z) (o : Q) :
  (0 ≤ h)%Z → (0 ≤ d)%Z → 0 <= o →
  let m := simuler_mois annexe h d o in
  (0 ≤ jni m ≤ d)%Z ∧ (0 ≤ jours_indem m ≤ d)%Z ∧
  0 <= are_mensuelle m <= o * inject_Z d.
Proof.
  intros Hh Hd Ho m. subst m.
  pose proof (jours_indem_value annexe h d o) as Hj.
  cbn [simuler_mois jni jours_indem are_mensuelle] in *. rewrite Hj.
  assert (Hn : (0 ≤ calcul_jni annexe h d ≤ d)%Z).
  { rewrite calcul_jni_integer.
    destruct (annexe =? 10)%Z; Z.div_mod_to_equations; lia. }
  split; [lia|]. split; [lia|].
  assert (0 <= inject_Z (d - calcul_jni annexe h d))
    by (apply (inject_Z_le 0); lia).
  assert (inject_Z (d - calcul_jni annexe h d) <= inject_Z d)
    by (apply inject_Z_le; lia).
  split; nra.
Qed.

Lemma mois_bounds_witness :
  (0 ≤ 143)%Z ∧ (0 ≤ 30)%Z ∧ 0 <= 49.70 ∧
  (0 ≤ jni (simuler_mois 8 143 30 49.70) ≤ 30)%Z ∧
  (0 ≤ jours_indem (simuler_mois 8 143 30 49.70) ≤ 30)%Z ∧
  0 <= are_mensuelle (simuler_mois 8 143 30 49.70) <= 49.70 * inject_Z 30.
Proof.
  split; [lia|]. split; [lia|]. split; [lra|].
  apply (mois_bounds 8 143 30 49.70); [lia | lia | lra].
Defined.

Lemma calcul_jni_mono (annexe h1 h2 d : Z) :
  (h1 ≤ h2)%Z → (calcul_jni annexe h1 d ≤ calcul_jni annexe h2 d)%Z.
Proof.
  intros H. rewrite !calcul_jni_integer.
  destruct (annexe =? 10)%Z; Z.div_mod_to_equations; lia.
Qed.

(** More hours in the month never give fewer non-indemnified days, nor more
    indemnifiable days, nor, for a non-negative daily benefit, a larger
    monthly benefit. *)
Theorem mois_monotone_in_hours (annexe h1 h2 d : Z) (o : Q) :
  (h1 ≤ h2)%Z → 0 <= o →
  let m1 := simuler_mois annexe h1 d o in
  let m2 := simuler_mois annexe h2 d o in
  (jni m1 ≤ jni m2)%Z ∧ (jours_indem m2 ≤ jours_indem m1)%Z ∧
  are_mensuelle m2 <= are_mensuelle m1.
Proof.
  intros H Ho m1 m2. subst m1 m2.
  pose proof (jours_indem_value annexe h1 d o) as Hj1.
  pose proof (jours_indem_value annexe h2 d o) as Hj2.
  pose proof (calcul_jni_mono annexe h1 h2 d H) as Hm.
  cbn [simuler_mois jni jours_indem are_mensuelle] in *. rewrite Hj1, Hj2.
  split; [lia|]. split; [lia|].
  assert (inject_Z (d - calcul_jni annexe h2 d) <=
          inject_Z (d - calcul_jni annexe h1 d)) by (apply inject_Z_le; lia).
  nra.
Qed.

Lemma mois_monotone_in_hours_witness :
  (60 ≤ 143)%Z ∧ 0 <= 49.70 ∧
  (jni (simuler_mois 8 60 30 49.70) ≤ jni (simuler_mois 8 143 30 49.70))%Z ∧
  (jours_indem (simuler_mois 8 143 30 49.70) ≤
   jours_indem (simuler_mois 8 60 30 49.70))%Z ∧
  are_mensuelle (simuler_mois 8 143 30 49.70) <=
  are_mensuelle (simuler_mois 8 60 30 49.70).
Proof.
  split; [lia|]. split; [lra|].
  apply (mois_monotone_in_hours 8 60 143 30 49.70); [lia | lra].
Defined.

(** For the same non-negative hours, an artist never has more
    non-indemnified days than any other annexe, so never fewer indemnifiable
    days. *)
Theorem artist_jni_at_most_technician (annexe h d : Z) (o : Q) :
  (0 ≤ h)%Z →
  (calcul_jni 10 h d ≤ calcul_jni annexe h d)%Z ∧
  (jours_indem (simuler_mois annexe h d o) ≤
   jours_indem (simuler_mois 10 h d o))%Z.
Proof.
  intros Hh. rewrite !jours_indem_value.
  assert ((calcul_jni 10 h d ≤ calcul_jni annexe h d)%Z); [|lia].
  rewrite !calcul_jni_integer. change (10 =? 10)%Z with true. cbn match.
  destruct (annexe =? 10)%Z; Z.div_mod_to_equations; lia.
Qed.

Lemma artist_jni_at_most_technician_witness :
  (0 ≤ 143)%Z ∧
  (calcul_jni 10 143 30 ≤ calcul_jni 8 143 30)%Z ∧
  (jours_indem (simuler_mois 8 143 30 49.70) ≤
   jours_indem (simuler_mois 10 143 30 49.70))%Z.
Proof.
  split; [lia|]. apply (artist_jni_at_most_technician 8 143 30 49.70). lia.
Defined.

(** The month is not indemnified at all exactly when the hours exceed
    100 (d - 1) / 13 for an artist and 40 (d - 1) / 7 otherwise, [d] being
    the days of the month: 224 and 166 hours in a month of 30 days. *)
Theorem no_indemnified_day_iff (annexe h d : Z) (o : Q) :
  jours_indem (simuler_mois annexe h d o) = 0%Z ↔
  if (annexe =? 10)%Z then (100 * (d - 1) < 13 * h)%Z
  else (40 * (d - 1) < 7 * h)%Z.
Proof.
  rewrite jours_indem_value, calcul_jni_integer.
  destruct (annexe =? 10)%Z; split; intros H;
    Z.div_mod_to_equations; lia.
Qed.

(** With at least one day in the month and non-negative hours, the whole
    month is indemnifiable only when no hour was worked: a single hour
    already costs a day. *)
Theorem full_month_iff_no_hours (annexe h d : Z) (o : Q) :
  (0 ≤ h)%Z → (1 ≤ d)%Z →
  (jours_indem (simuler_mois annexe h d o) = d ↔ h = 0%Z) ∧
  ((1 ≤ h)%Z → (1 ≤ jni (simuler_mois annexe h d o))%Z).
Proof.
  intros Hh Hd. rewrite jours_indem_value.
  cbn [simuler_mois jni]. rewrite calcul_jni_integer.
  destruct (annexe =? 10)%Z; (split; [split|]); intros H;
    Z.div_mod_to_equations; lia.
Qed.

Lemma full_month_iff_no_hours_witness :
  (0 ≤ 1)%Z ∧ (1 ≤ 30)%Z ∧
  (jours_indem (simuler_mois 10 1 30 49.70) = 30%Z ↔ 1%Z = 0%Z) ∧
  ((1 ≤ 1)%Z → (1 ≤ jni (simuler_mois 10 1 30 49.70))%Z).
Proof.
  split; [lia|]. split; [lia|].
  apply (full_month_iff_no_hours 10 1 30 49.70); lia.
Defined.

Lemma calcul_jni_eight_hours (annexe h k d : Z) :
  (8 ≤ k)%Z →
  (Z.min (calcul_jni annexe h d + 1) d ≤ calcul_jni annexe (h + k) d)%Z.
Proof.
  intros H. rewrite !calcul_jni_integer.
  destruct (annexe =? 10)%Z; Z.div_mod_to_equations; lia.
Qed.

Section Page.

Variables (annexe jours_mois cachets heures_cachet : Z).
Variables (cdd_heures heures_formation cachets_repet jours_maladie : Z).
Variable (are_journaliere_override : Q).

(** An unpaid sick day counts for 8 hours, which costs at least one
    indemnifiable day under either annexe, as long as one is left. *)
Theorem sick_day_costs_a_day :
  (jours_indem (bouton_simuler annexe jours_mois cachets heures_cachet
                  cdd_heures heures_formation cachets_repet
                  (jours_maladie + 1) are_journaliere_override)
   ≤ Z.max (jours_indem (bouton_simuler annexe jours_mois cachets
                           heures_cachet cdd_heures heures_formation
                           cachets_repet jours_maladie
                           are_journaliere_override) - 1) 0)%Z.
Proof.
  unfold bouton_simuler. rewrite !jours_indem_value.
  set (h := heures_totales cachets heures_cachet cachets_repet jours_maladie
              heures_formation cdd_heures).
  replace (heures_totales cachets heures_cachet cachets_repet
             (jours_maladie + 1) heures_formation cdd_heures)
    with (h + 8)%Z by (unfold h, heures_totales; lia).
  pose proof (calcul_jni_eight_hours annexe h 8 jours_mois ltac:(lia)).
  pose proof (calcul_jni_le annexe (h + 8) jours_mois).
  lia.
Qed.

(** A cachet of at least 8 hours costs at least one indemnifiable day under
    either annexe, as long as one is left. *)
Theorem cachet_costs_a_day :
  (8 ≤ heures_cachet)%Z →
  (jours_indem (bouton_simuler annexe jours_mois (cachets + 1) heures_cachet
                  cdd_heures heures_formation cachets_repet
                  jours_maladie are_journaliere_override)
   ≤ Z.max (jours_indem (bouton_simuler annexe jours_mois cachets
                           heures_cachet cdd_heures heures_formation
                           cachets_repet jours_maladie
                           are_journaliere_override) - 1) 0)%Z.
Proof.
  intros Hc. unfold bouton_simuler. rewrite !jours_indem_value.
  set (h := heures_totales cachets heures_cachet cachets_repet jours_maladie
              heures_formation cdd_heures).
  replace (heures_totales (cachets + 1) heures_cachet cachets_repet
             jours_maladie heures_formation cdd_heures)
    with (h + heures_cachet)%Z by (unfold h, heures_totales; lia).
  pose proof (calcul_jni_eight_hours annexe h heures_cachet jours_mois Hc).
  pose proof (calcul_jni_le annexe (h + heures_cachet) jours_mois).
  lia.
Qed.

End Page.

(** Five cachets of 12 hours, then a sixth, for an artist in a month of 30
    days: 22 indemnifiable days, then 20. *)
Lemma cachet_costs_a_day_witness :
  (8 ≤ 12)%Z ∧
  jours_indem (bouton_simuler 10 30 5 12 0 0 0 0 49.70) = 22%Z ∧
  jours_indem (bouton_simuler 10 30 (5 + 1) 12 0 0 0 0 49.70) = 20%Z ∧
  (jours_indem (bouton_simuler 10 30 (5 + 1) 12 0 0 0 0 49.70)
   ≤ Z.max (jours_indem (bouton_simuler 10 30 5 12 0 0 0 0 49.70) - 1) 0)%Z.
Proof.
  split; [lia|]. split; [reflexivity|]. split; [reflexivity|].
  apply (cachet_costs_a_day 10 30 5 12 0 0 0 0 49.70). lia.
Defined.

Lemma calcul_jni_one_hour (annexe h d : Z) :
  (calcul_jni annexe h d ≤ calcul_jni annexe (h + 1) d
   ≤ calcul_jni annexe h d + 1)%Z.
Proof.
  rewrite !calcul_jni_integer.
  destruct (annexe =? 10)%Z; Z.div_mod_to_equations; lia.
Qed.

Section Revenue.

Variables (annexe jours_mois cachets heures_cachet montant_cachet : Z).
Variables (cdd_taux_horaire : Q).
Variables (auto_montant heures_formation cachets_repet jours_maladie : Z).
Variable (are_journaliere_override : Q).

(** One more hour of fixed-term contract costs at most one indemnifiable
    day.  With a non-negative daily benefit the total income of the month
    therefore changes by at least the hourly rate minus one daily benefit,
    and by at most the hourly rate: it can go down when the hour is paid
    less than a day of benefit. *)
Theorem extra_cdd_hour_income (cdd_heures : Z) :
  0 <= are_journaliere_override →
  let total h :=
    revenu_total annexe jours_mois cachets heures_cachet montant_cachet h
      cdd_taux_horaire auto_montant heures_formation cachets_repet
      jours_maladie are_journaliere_override in
  cdd_taux_horaire - are_journaliere_override
    <= total (cdd_heures + 1)%Z - total cdd_heures
    <= cdd_taux_horaire.
Proof.
  intros Ho total. subst total. unfold revenu_total, bouton_simuler.
  set (h := heures_totales cachets heures_cachet cachets_repet jours_maladie
              heures_formation cdd_heures).
  replace (heures_totales cachets heures_cachet cachets_repet jours_maladie
             heures_formation (cdd_heures + 1))
    with (h + 1)%Z by (unfold h, heures_totales; lia).
  pose proof (jours_indem_value annexe h jours_mois
                are_journaliere_override) as Hj.
  pose proof (jours_indem_value annexe (h + 1) jours_mois
                are_journaliere_override) as Hj'.
  pose proof (calcul_jni_one_hour annexe h jours_mois) as [Hlo Hhi].
  cbn [simuler_mois jours_indem are_mensuelle] in *. rewrite Hj, Hj'.
  assert (H1 : inject_Z (jours_mois - calcul_jni annexe (h + 1) jours_mois)
               <= inject_Z (jours_mois - calcul_jni annexe h jours_mois))
    by (apply inject_Z_le; lia).
  assert (H2 : inject_Z (jours_mois - calcul_jni annexe h jours_mois) - 1
               <= inject_Z (jours_mois - calcul_jni annexe (h + 1) jours_mois)).
  { unfold Qle, Qminus, Qplus, Qopp. simpl. lia. }
  rewrite inject_Z_plus. change (inject_Z 1) with 1.
  split; nra.
Qed.

End Revenue.

(** A technician with 142 hours of contract paid 11.61 an hour, in a month
    of 30 days with a daily benefit of 49.70: the 143rd hour brings 11.61
    and costs a day of benefit, and the month's income goes down by 38.09. *)
Lemma extra_cdd_hour_income_witness :
  0 <= 49.70 ∧
  revenu_total 8 30 0 8 90 (142 + 1) 11.61 0 0 0 0 49.70
  - revenu_total 8 30 0 8 90 142 11.61 0 0 0 0 49.70 == - 38.09 ∧
  11.61 - 49.70
    <= revenu_total 8 30 0 8 90 (142 + 1) 11.61 0 0 0 0 49.70
       - revenu_total 8 30 0 8 90 142 11.61 0 0 0 0 49.70
    <= 11.61.
Proof.
  split; [lra|]. split; [by vm_compute|].
  apply (extra_cdd_hour_income 8 30 0 8 90 11.61 0 0 0 0 49.70 142). lra.
Defined.
